(** * pmgrestclient: a shallow embedding of [pmgrestclient/__init__.py]

    The module is a base class for REST clients layered on the [requests]
    library.  Everything it does is control flow around effects: HTTP
    requests, log records, [sleep], and one file written by
    [download_file].  The embedding therefore is a state-and-exception
    monad over a [world] that records, in order, every effect the code
    performs; the network and the file system's willingness to open a
    file are an environment the code cannot influence.

    Python values are modelled by [pyval] (what [json.loads] can produce),
    Python exceptions by [exn], dictionaries by stdpp's [gmap]. *)

From Stdlib Require Import ZArith QArith Ascii String.
From Stdlib.Strings Require Import Byte.
From stdpp Require Import gmap strings list.
Close Scope Q_scope.
Set Warnings "-register-all".

(** ** Python values *)

(** The values a decoded JSON document is made of.  JSON numbers are taken
    to be integers; a JSON object is a [dict] keyed by strings. *)
Inductive pyval : Type :=
| VNone
| VBool (b : bool)
| VInt (z : Z)
| VStr (s : string)
| VList (l : list pyval)
| VDict (d : gmap string pyval).

(** Python truthiness, as used by [x or y] and [x if c else y]. *)
Definition truthy (v : pyval) : bool :=
  match v with
  | VNone => false
  | VBool b => b
  | VInt z => negb (z =? 0)%Z
  | VStr s => negb (String.eqb s "")
  | VList l => match l with [] => false | _ => true end
  | VDict d => negb (bool_decide (d = ∅))
  end.

(** Keys of [errors_by_code]: the hashable values that can meet a decoded
    JSON value.  [True] and [False] hash and compare as [1] and [0], so a
    bool is the key [KInt 1] or [KInt 0]. *)
Inductive key : Type :=
| KNone
| KInt (z : Z)
| KStr (s : string).

#[global] Instance key_eq_dec : EqDecision key.
Proof. solve_decision. Defined.

#[global] Instance key_countable : Countable key.
Proof.
  refine (inj_countable'
    (fun k => match k with
              | KNone => inl tt
              | KInt z => inr (inl z)
              | KStr s => inr (inr s)
              end)
    (fun x => match x with
              | inl _ => KNone
              | inr (inl z) => KInt z
              | inr (inr s) => KStr s
              end) _).
  by intros [].
Defined.

(** [hash(v)]: lists and dicts are unhashable. *)
Definition hash_key (v : pyval) : option key :=
  match v with
  | VNone => Some KNone
  | VBool b => Some (KInt (if b then 1 else 0))
  | VInt z => Some (KInt z)
  | VStr s => Some (KStr s)
  | VList _ | VDict _ => None
  end.

Definition key_val (k : key) : pyval :=
  match k with
  | KNone => VNone
  | KInt z => VInt z
  | KStr s => VStr s
  end.

(** A member of the error enumeration: [e.name] and [e.value], a tuple
    whose first component [e.value[0]] is the code. *)
Record member : Type := Member_ {
  name : string;
  value : key * list pyval
}.

(** What can be passed as a keyword argument to [abort] and stored in an
    [ApiCallException]: a plain value, an enumeration member, or an
    instance of [ApiCallException.EmptyError]. *)
Inductive pyobj : Type :=
| Val (v : pyval)
| Member (m : member)
| EmptyError.

(** Keyword arguments, in call order. *)
Definition kwargs_t : Type := list (string * pyobj).

(** [d.get(k)] on keyword arguments. *)
Fixpoint kw_get (kw : kwargs_t) (k : string) : option pyobj :=
  match kw with
  | [] => None
  | (k', v) :: kw' => if String.eqb k' k then Some v else kw_get kw' k
  end.

(** ** Exceptions and results *)

Module ApiCallException.

(** The state [__init__] leaves behind: [given_args], [url], and the
    single argument handed to [Exception.__init__]. *)
Record t : Type := Build {
  given_args : kwargs_t;
  url : option pyobj;
  args0 : pyobj
}.

Section Init.
(** [py_str] is Python's [format(v, '')], used by the f-string. *)
Variable py_str : pyobj -> string.
(** The members of the class passed as [error_code_type]. *)
Variable error_code_type : list member.

(** [isinstance(v, error_code_type)]: [v] is one of the members of the
    enumeration; members of an [Enum] are identified by their name. *)
Definition isinstance (v : pyobj) : bool :=
  match v with
  | Member m => bool_decide (name m ∈ map name error_code_type)
  | _ => false
  end.

(** [err = lambda v: v if not isinstance(v, error_code_type) else v.value[0]] *)
Definition err (v : pyobj) : pyobj :=
  if negb (isinstance v) then v
  else match v with
       | Member m => Val (key_val (fst (value m)))
       | _ => v
       end.

(** [', '.join(parts)] *)
Fixpoint join (sep : string) (parts : list string) : string :=
  match parts with
  | [] => ""
  | [p] => p
  | p :: ps => p +:+ sep +:+ join sep ps
  end.

Definition __init__ (kwargs : kwargs_t) : t :=
  {| given_args := kwargs;
     url := kw_get kwargs "url";
     args0 :=
       match kw_get kwargs "message" with
       | Some m => m
       | None =>
           Val (VStr (join ", "
             (map (fun kv => fst kv +:+ ": " +:+ py_str (err (snd kv))) kwargs)))
       end |}.
End Init.

(** [status_code]: [given_args.get('status_code')], [None] when absent. *)
Definition status_code (e : t) : pyobj :=
  default (Val VNone) (kw_get (given_args e) "status_code").


(** [error]: [given_args.get('error', ApiCallException.EmptyError())]. *)
Definition error (e : t) : pyobj :=
  default EmptyError (kw_get (given_args e) "error").


End ApiCallException.

(** The exceptions that occur in the module.  [JSONDecodeError] is a
    subclass of [ValueError]; the others are unrelated to both. *)
Inductive exn : Type :=
| ApiCallException_ (e : ApiCallException.t)
| ConnectionError
| JSONDecodeError
| ValueError
| AttributeError
| TypeError
| UnboundLocalError
| OSError.

Definition is_ValueError (e : exn) : bool :=
  match e with
  | JSONDecodeError | ValueError => true
  | _ => false
  end.

Definition is_JSONDecodeError (e : exn) : bool :=
  match e with
  | JSONDecodeError => true
  | _ => false
  end.

Definition is_ConnectionError (e : exn) : bool :=
  match e with
  | ConnectionError => true
  | _ => false
  end.

Inductive result (A : Type) : Type :=
| Ok (a : A)
| Raise (e : exn).
Arguments Ok {A} a.
Arguments Raise {A} e.

(** ** The outside world *)

Inductive verb : Type := GET | DELETE | PUT | POST | PATCH.

Definition header_map : Type := gmap string string.

(** The arguments of one call into [requests]. *)
Record request : Type := Request {
  req_url : string;
  req_headers : option header_map;
  req_json : pyval;
  req_params : pyval;
  req_stream : bool
}.

(** What the code reads of a [requests.Response].  [resp_json] is the
    outcome of [resp.json()]: the decoded document, or an exception that
    is a [ValueError] ([JSONDecodeError] or, with another JSON backend, a
    [ValueError] that is not one).  [iter_content] lists the blocks that
    [resp.iter_content(1024)] yields. *)
Inductive json_outcome : Type :=
| Decoded (j : pyval)
| NotJson
| NotJsonValueError.

Record response : Type := Response {
  status_code : Z;
  ok : bool;
  headers_of : header_map;
  resp_json : json_outcome;
  iter_content : list (list byte)
}.

Inductive outcome : Type :=
| Responded (r : response)
| ConnectionFailed.

(** The effects, in the order they happen.  [EvSleep d] is the call
    [sleep(d)], whether it sleeps or, for a negative [d], raises. *)
Inductive event : Type :=
| EvRequest (v : verb) (rq : request)
| EvWarning (url : string) (call_no : Z) (of_ : Z) (delay : Q)
| EvSleep (delay : Q)
| EvError (path : string) (resp_j : pyval)
| EvOpen (path : string)
| EvWrite (path : string) (block : list byte)
| EvClose (path : string).

Record world : Type := World {
  clock : nat;                       (* transport calls made so far *)
  trace : list event;                (* effects so far, oldest first *)
  files : gmap string (list byte)    (* contents of the files *)
}.

(** ** The monad of the embedding *)

Definition M (A : Type) : Type := world -> result A * world.

Definition ret {A} (a : A) : M A := fun w => (Ok a, w).

Definition bind {A B} (m : M A) (k : A -> M B) : M B :=
  fun w => match m w with
           | (Ok a, w') => k a w'
           | (Raise e, w') => (Raise e, w')
           end.

Definition raise {A} (e : exn) : M A := fun w => (Raise e, w).

(** [try: m  except <handles>: h] *)
Definition try_except {A} (m : M A) (handles : exn -> bool) (h : exn -> M A) : M A :=
  fun w => match m w with
           | (Ok a, w') => (Ok a, w')
           | (Raise e, w') => if handles e then h e w' else (Raise e, w')
           end.

(** [try: m  finally: f], the shape of a [with] block. *)
Definition finally {A} (m : M A) (f : M unit) : M A :=
  fun w => match m w with
           | (r, w') => match f w' with
                        | (Ok _, w'') => (r, w'')
                        | (Raise e, w'') => (Raise e, w'')
                        end
           end.

Definition lift {A} (r : result A) : M A := fun w => (r, w).

Definition emit (ev : event) : M unit :=
  fun w => (Ok tt, {| clock := clock w; trace := trace w ++ [ev]; files := files w |}).

(** [time.sleep(delay)]: a negative delay makes the call raise
    [ValueError] at once instead of sleeping. *)
Definition sleep (delay : Q) : M unit :=
  bind (emit (EvSleep delay))
    (fun _ => if Qle_bool 0 delay then ret tt else raise ValueError).

Notation "x <~ m ; k" := (bind m (fun x => k))
  (at level 20, m at level 100, k at level 200, only parsing).
Notation "m ;;; k" := (bind m (fun _ => k))
  (at level 100, k at level 200, only parsing, right associativity).

(** ** String helpers from the Python runtime *)

(** [s.rfind(c)]: the highest index at which [c] occurs, [-1] if none. *)
Fixpoint rfind (s : string) (c : ascii) : Z :=
  match s with
  | EmptyString => -1
  | String a s' =>
      let r := rfind s' c in
      if (0 <=? r)%Z then (r + 1)%Z
      else if Ascii.eqb a c then 0%Z else (-1)%Z
  end.

Fixpoint drop_chars (n : nat) (s : string) : string :=
  match n, s with
  | O, _ => s
  | S n', EmptyString => EmptyString
  | S n', String _ s' => drop_chars n' s'
  end.

(** [s[i:]], a negative [i] counting from the end. *)
Definition slice_from (s : string) (i : Z) : string :=
  if (i <? 0)%Z
  then drop_chars (Z.to_nat (Z.max 0 (Z.of_nat (String.length s) + i))) s
  else drop_chars (Z.to_nat i) s.

Definition startswith (s : string) (c : ascii) : bool :=
  match s with
  | String a _ => Ascii.eqb a c
  | EmptyString => false
  end.

Fixpoint endswith (s : string) (c : ascii) : bool :=
  match s with
  | EmptyString => false
  | String a EmptyString => Ascii.eqb a c
  | String _ s' => endswith s' c
  end.

(** [os.path.join(a, b)] (POSIX). *)
Definition join_path (a b : string) : string :=
  if startswith b "/"%char then b
  else if String.eqb a "" || endswith a "/"%char then a +:+ b
  else a +:+ "/" +:+ b.

(** [range(lo, hi)] *)
Definition range (lo hi : Z) : list Z :=
  map (fun k => (lo + Z.of_nat k)%Z) (seq 0 (Z.to_nat (hi - lo))).

(** ** Response handlers *)

(** [resp.json()] *)
Definition Response_json (resp : response) : result pyval :=
  match resp_json resp with
  | Decoded j => Ok j
  | NotJson => Raise JSONDecodeError
  | NotJsonValueError => Raise ValueError
  end.

(** The module-level [json(resp)]: [{}] on [JSONDecodeError]. *)
Definition json (resp : response) : result pyval :=
  match Response_json resp with
  | Ok j => Ok j
  | Raise e => if is_JSONDecodeError e then Ok (VDict ∅) else Raise e
  end.

Definition json_response_handler (res : response) : result pyval :=
  json res.



(** ** ApiBase *)

Module ApiBase.

(** The attributes [__init__] sets. *)
Record t : Type := Build {
  base : string;
  error_code_type : list member;
  stat404retry_count : Z;
  stat404retry_delay : Q;
  errors_by_code : gmap key member
}.

(** [{e.value[0]: e for e in error_code_type}]: a later member replaces
    an earlier one with the same code. *)
Definition by_code (members : list member) : gmap key member :=
  foldl (fun d e => <[fst (value e) := e]> d) ∅ members.

(** [x or 0] on an optional number. *)
Definition or0 (x : option Z) : Z :=
  match x with
  | Some z => if (z =? 0)%Z then 0%Z else z
  | None => 0%Z
  end.

Definition or0Q (x : option Q) : Q :=
  match x with
  | Some q => if Qeq_bool q 0 then 0%Q else q
  | None => 0%Q
  end.

Definition __init__ (base : string) (error_code_type : list member)
    (stat404retry_count : option Z) (stat404retry_delay : option Q) : t :=
  {| base := base;
     error_code_type := error_code_type;
     stat404retry_count := or0 stat404retry_count;
     stat404retry_delay := or0Q stat404retry_delay;
     errors_by_code := by_code error_code_type |}.

(** The methods a subclass overrides. *)
Class Hooks : Type := {
  headers : list (string * pyval) -> option header_map;
  response_error_code : pyval -> result pyval
}.

(** [ApiBase.headers] returns [None]; [ApiBase.response_error_code] is
    [response.get('error')], which only a dict has. *)
#[export] Instance base_hooks : Hooks := {|
  headers := fun _ => None;
  response_error_code := fun response =>
    match response with
    | VDict d => Ok (default VNone (d !! "error"))
    | _ => Raise AttributeError
    end
|}.

(** [error in d] and [d.get(error)] on [errors_by_code]: both hash
    [error] first. *)
Definition dict_contains (d : gmap key member) (error : pyval) : result bool :=
  match hash_key error with
  | Some k => Ok (bool_decide (is_Some (d !! k)))
  | None => Raise TypeError
  end.

Definition dict_get (d : gmap key member) (error : pyval) : result pyobj :=
  match hash_key error with
  | Some k => Ok (match d !! k with Some m => Member m | None => Val VNone end)
  | None => Raise TypeError
  end.

(** [headers or self.headers(..)], the keyword arguments passed on *)
Definition headers_or (hd : option header_map) (dflt : option header_map)
    : option header_map :=
  match hd with
  | Some m => if bool_decide (m = ∅) then dflt else Some m
  | None => dflt
  end.

Inductive loop_exit (R : Type) : Type :=
| Returned (v : R)                 (* [return] inside the loop *)
| Fell (res : option response).    (* [break], or the range ran out *)
Arguments Returned {R} v.
Arguments Fell {R} res.

Section Methods.
(** The environment: the outcome of the n-th transport call, which
    paths [open(path, 'wb')] succeeds on, and [format]. *)
Variable net : nat -> verb -> request -> outcome.
Variable can_open : string -> bool.
Variable py_str : pyobj -> string.

Context {hooks : Hooks}.
Variable self : t.

(** A call of one of [requests.get], [requests.put], ... *)
Definition requests_call (call : verb) (rq : request) : M response :=
  fun w =>
    let w' := {| clock := S (clock w);
                 trace := trace w ++ [EvRequest call rq];
                 files := files w |} in
    match net (clock w) call rq with
    | Responded r => (Ok r, w')
    | ConnectionFailed => (Raise ConnectionError, w')
    end.

Definition _url (path : string) (path_abs : bool) : string :=
  if negb path_abs then base self +:+ "/" +:+ path else path.

Definition abort {A} (kwargs : kwargs_t) : M A :=
  raise (ApiCallException_
           (ApiCallException.__init__ py_str (error_code_type self) kwargs)).

Section Call.
Context {R : Type}.
Variable call : verb.
Variable path : string.
Variable headers_arg : option header_map.
Variable data : pyval.
Variable params : pyval.
Variable path_abs : bool.
Variable response_handler : response -> result R.
Variable kwargs : list (string * pyval).

(** The arguments of line 89. *)
Definition call_request : request :=
  {| req_url := _url path path_abs;
     req_headers := headers_or headers_arg (headers kwargs);
     req_json := (if truthy data then data else VNone);
     req_params := params;
     req_stream := false |}.

(** The [for] loop of lines 87-98 over the remaining indices, [res]
    being the local variable of that name. *)
Fixpoint retry_loop (indices : list Z) (res : option response)
    : M (loop_exit R) :=
  match indices with
  | [] => ret (Fell res)
  | i :: indices' =>
      res <~ try_except (requests_call call call_request)
               is_ConnectionError
               (fun _ => abort [("message", Val (VStr "Connection error"));
                                ("url", Val (VStr (_url path path_abs)))]);
      if ((200 <=? status_code res) && (status_code res <=? 299))%Z
      then v <~ lift (response_handler res); ret (Returned v)
      else if ((status_code res =? 404) && (i <? stat404retry_count self))%Z
      then emit (EvWarning (_url path path_abs) (i + 1)
                   (stat404retry_count self) (stat404retry_delay self)) ;;;
           sleep (stat404retry_delay self) ;;;
           retry_loop indices' (Some res)
      else ret (Fell (Some res))
  end.

(** Reading the local [res]. *)
Definition local (res : option response) : M response :=
  match res with
  | Some r => ret r
  | None => raise UnboundLocalError
  end.

(** Lines 100-109. *)
Definition classify (res : option response) : M R :=
  try_except
    (r <~ local res;
     resp_j <~ lift (json r);
     emit (EvError path resp_j) ;;;
     error <~ lift (response_error_code resp_j);
     known <~ lift (dict_contains (errors_by_code self) error);
     if (known : bool)
     then found <~ lift (dict_get (errors_by_code self) error);
          abort [("status_code", Val (VInt (status_code r)));
                 ("error", found);
                 ("url", Val (VStr (_url path path_abs)));
                 ("response_body", Val resp_j)]
     else ret tt)
    is_ValueError (fun _ => ret tt) ;;;
  r <~ local res;
  abort [("status_code", Val (VInt (status_code r)));
         ("url", Val (VStr (_url path path_abs)))].

Definition _call : M R :=
  exit <~ retry_loop (range 0 (stat404retry_count self + 1)) None;
  match exit with
  | Returned v => ret v
  | Fell res => classify res
  end.
End Call.


(** [open(path, 'wb')] creates or truncates the file. *)
Definition open_wb (path : string) : M unit :=
  fun w =>
    if can_open path
    then (Ok tt, {| clock := clock w;
                    trace := trace w ++ [EvOpen path];
                    files := <[path := []]> (files w) |})
    else (Raise OSError, w).

Definition write (path : string) (block : list byte) : M unit :=
  fun w =>
    (Ok tt, {| clock := clock w;
               trace := trace w ++ [EvWrite path block];
               files := <[path := default [] (files w !! path) ++ block]> (files w) |}).

(** Lines 76-79. *)
Fixpoint write_blocks (path : string) (blocks : list (list byte)) : M unit :=
  match blocks with
  | [] => ret tt
  | block :: blocks' =>
      match block with
      | [] => ret tt
      | _ => write path block ;;; write_blocks path blocks'
      end
  end.

Definition local_path_of (source_url local_dir : string) : string :=
  join_path local_dir (slice_from source_url (rfind source_url "/"%char + 1)).

Definition download_file (source_url local_dir : string) : M string :=
  let local_path := local_path_of source_url local_dir in
  open_wb local_path ;;;
  finally
    (resp <~ requests_call GET
               {| req_url := source_url;
                  req_headers := headers [];
                  req_json := VNone;
                  req_params := VNone;
                  req_stream := true |};
     if negb (ok resp)
     then raise (ApiCallException_
            (ApiCallException.__init__ py_str (error_code_type self)
               [("status_code", Val (VInt (status_code resp)));
                ("url", Val (VStr source_url))]))
     else write_blocks local_path (iter_content resp))
    (emit (EvClose local_path)) ;;;
  ret local_path.
End Methods.

End ApiBase.

(** ** Vocabulary of the statements *)

Section Vocabulary.
Import ApiBase.
Variable net : nat -> verb -> request -> outcome.
Variable self : ApiBase.t.
Variable call : verb.
Variable rq : request.
Variable url : string.

Definition is_404 (o : outcome) : bool :=
  match o with
  | Responded r => (status_code r =? 404)%Z
  | ConnectionFailed => false
  end.

Definition is_2xx (r : response) : bool :=
  ((200 <=? status_code r) && (status_code r <=? 299))%Z.

(** The [k] transport calls made from time [c] on are answered by 404. *)
Fixpoint answered_404 (c k : nat) : bool :=
  match k with
  | O => true
  | S k' => is_404 (net c call rq) && answered_404 (S c) k'
  end.

(** What [k] retries starting with loop index [i] leave in the trace:
    the request that got the 404, the warning, the sleep. *)
Fixpoint retry_events (i k : nat) : list event :=
  match k with
  | O => []
  | S k' =>
      EvRequest call rq
      :: EvWarning url (Z.of_nat i + 1) (stat404retry_count self)
           (stat404retry_delay self)
      :: EvSleep (stat404retry_delay self)
      :: retry_events (S i) k'
  end.

(** The world after [k] retries and the request of attempt [k + 1]. *)
Definition attempted (w : world) (k : nat) : world :=
  {| clock := S (clock w + k);
     trace := trace w ++ retry_events 0 k ++ [EvRequest call rq];
     files := files w |}.

(** The [k] sleeps of [k] retries return: there is none, or the delay
    is not negative. *)
Definition sleeps_return (k : nat) : Prop :=
  k = 0%nat \/ (0 <= stat404retry_delay self)%Q.

(** [r] is the final response of a call started in [w]: it answers
    attempt [k + 1] after [k] answers 404 and [k] sleeps that returned,
    it is not a success, and it is not retried (it is not a 404, or no
    retry is left). *)
Definition final_response (w : world) (k : nat) (r : response) : Prop :=
  answered_404 (clock w) k = true /\
  (Z.of_nat k <= stat404retry_count self)%Z /\
  net (clock w + k) call rq = Responded r /\
  is_2xx r = false /\
  (status_code r <> 404%Z \/ Z.of_nat k = stat404retry_count self) /\
  sleeps_return k.

Definition is_EvError (ev : event) : bool :=
  match ev with
  | EvError _ _ => true
  | _ => false
  end.

Definition is_EvSleep (ev : event) : bool :=
  match ev with
  | EvSleep _ => true
  | _ => false
  end.

Definition is_EvWarning (ev : event) : bool :=
  match ev with
  | EvWarning _ _ _ _ => true
  | _ => false
  end.

Definition is_EvRequest (ev : event) : bool :=
  match ev with
  | EvRequest _ _ => true
  | _ => false
  end.
End Vocabulary.

(** The two failures that are raised outside classification. *)
Definition connection_error (py_str : pyobj -> string) (self : ApiBase.t)
    (url : string) : exn :=
  ApiCallException_
    (ApiCallException.__init__ py_str (ApiBase.error_code_type self)
       [("message", Val (VStr "Connection error")); ("url", Val (VStr url))]).

Definition download_failure (py_str : pyobj -> string) (self : ApiBase.t)
    (source_url : string) (r : response) : ApiCallException.t :=
  ApiCallException.__init__ py_str (ApiBase.error_code_type self)
    [("status_code", Val (VInt (status_code r))); ("url", Val (VStr source_url))].

(** Every request among [evs] is the request [rq] made with [call]. *)
Definition requests_are (call : verb) (rq : request) (evs : list event) : Prop :=
  Forall (fun ev => match ev with
                    | EvRequest v rq' => v = call /\ rq' = rq
                    | _ => True
                    end) evs.

(** How many events of a kind a stretch of the trace holds. *)
Definition count_events (p : event -> bool) (evs : list event) : nat :=
  length (List.filter p evs).

(** The blocks [download_file] writes: those before the first empty one. *)
Fixpoint blocks_written (blocks : list (list byte)) : list (list byte) :=
  match blocks with
  | [] => []
  | [] :: _ => []
  | block :: blocks' => block :: blocks_written blocks'
  end.

Fixpoint has_char (c : ascii) (s : string) : bool :=
  match s with
  | EmptyString => false
  | String a s' => Ascii.eqb a c || has_char c s'
  end.

(** The text after the last ['/'] of a path or URL. *)
Definition final_segment (s : string) : string :=
  slice_from s (rfind s "/"%char + 1).

(** ** Sample clients, servers and worlds *)

Module Samples.
Import ApiBase.

Definition NOT_FOUND : member :=
  {| name := "NOT_FOUND"; value := (KStr "NOT_FOUND", [VStr "no such thing"]) |}.

(** A member whose code is [None]. *)
Definition UNKNOWN : member :=
  {| name := "UNKNOWN"; value := (KNone, [VStr "unknown error"]) |}.

Definition client : ApiBase.t :=
  __init__ "http://api" [NOT_FOUND] (Some 2%Z) (Some (1 # 2)%Q).

Definition client_none_code : ApiBase.t :=
  __init__ "http://api" [NOT_FOUND; UNKNOWN] None None.

Definition fmt (o : pyobj) : string := "<obj>".

Definition reply (sc : Z) (body : json_outcome) : response :=
  {| status_code := sc;
     ok := (sc <? 400)%Z;
     headers_of := ∅;
     resp_json := body;
     iter_content := [] |}.

Definition ok_body : pyval := VDict (<["ok" := VBool true]> ∅).
Definition not_found_body : gmap string pyval := <["error" := VStr "NOT_FOUND"]> ∅.

(** Two answers 404, then 200 with [{"ok": true}]. *)
Definition net_404_404_200 (n : nat) (v : verb) (rq : request) : outcome :=
  match n with
  | 0 | 1 => Responded (reply 404 NotJson)
  | _ => Responded (reply 200 (Decoded ok_body))
  end.

Definition net_always (r : response) (n : nat) (v : verb) (rq : request) : outcome :=
  Responded r.

Definition net_down (n : nat) (v : verb) (rq : request) : outcome :=
  ConnectionFailed.

Definition image : response :=
  {| status_code := 200;
     ok := true;
     headers_of := ∅;
     resp_json := NotJson;
     iter_content := [[x89; x50]; [x4e; x47]; []; [x00]] |}.

Definition world0 : world := {| clock := 0; trace := []; files := ∅ |}.

Definition any_path (p : string) : bool := true.

(** [client.get('things/1')] against a given server. *)
Definition get_thing (net : nat -> verb -> request -> outcome) (self : ApiBase.t)
    : M pyval :=
  _call (hooks := base_hooks) net fmt self GET "things/1" None VNone VNone false
    json_response_handler [].

Definition thing_request (self : ApiBase.t) : request :=
  call_request (hooks := base_hooks) self "things/1" None VNone VNone false [].


(** [client.download_file('http://cdn/img/logo.png', '/tmp')] *)
Definition get_logo (net : nat -> verb -> request -> outcome) : M string :=
  download_file (hooks := base_hooks) net any_path fmt client
    "http://cdn/img/logo.png" "/tmp".
End Samples.

(** ** More clients, subclasses and servers *)

Module MoreSamples.
Import ApiBase Samples.

(** An older member with the code of [NOT_FOUND]. *)
Definition MISSING : member :=
  {| name := "MISSING"; value := (KStr "NOT_FOUND", []) |}.

Definition client_negative : ApiBase.t :=
  __init__ "http://api" [NOT_FOUND] (Some (-1)%Z) None.

Definition client_default : ApiBase.t :=
  __init__ "http://api" [NOT_FOUND] None None.





Definition image_whole : response :=
  {| status_code := 200;
     ok := true;
     headers_of := ∅;
     resp_json := NotJson;
     iter_content := [[x89; x50]; [x4e; x47]] |}.


End MoreSamples.

(** * Properties *)

Section Dispatch.
Import ApiBase.
Variable net : nat -> verb -> request -> outcome.
Variable can_open : string -> bool.
Variable py_str : pyobj -> string.
Context {hooks : Hooks}.
Variable self : t.
Context {R : Type}.
Variable call : verb.
Variable path : string.
Variable headers_arg : option header_map.
Variable data : pyval.
Variable params : pyval.
Variable path_abs : bool.
Variable response_handler : response -> result R.
Variable kwargs : list (string * pyval).

Let rq := call_request self path headers_arg data params path_abs kwargs.
Let url := _url self path path_abs.
Let loop := retry_loop net py_str self call path headers_arg data params
              path_abs response_handler kwargs.
Let run := _call net py_str self call path headers_arg data params
              path_abs response_handler kwargs.
Let finish := @classify py_str hooks self R path path_abs.

Lemma range_0_split (k : nat) (n : Z) :
  (Z.of_nat k <= n)%Z ->
  range 0 (n + 1) =
    map Z.of_nat (seq 0 k) ++ Z.of_nat k :: map Z.of_nat (seq (S k) (Z.to_nat n - k)).
Proof.
  intros Hk. unfold range.
  rewrite (map_ext (fun a => (0 + Z.of_nat a)%Z) Z.of_nat) by (intros; lia).
  replace (Z.to_nat (n + 1 - 0)) with (k + S (Z.to_nat n - k))%nat by lia.
  rewrite seq_app, map_app. reflexivity.
Qed.

(** The loop does not read [res] before assigning it. *)
Lemma loop_cons_res i indices res res' w :
  loop (i :: indices) res w = loop (i :: indices) res' w.
Proof. reflexivity. Qed.

(** [k] answers 404 while retries remain: [k] rounds of request,
    warning and sleep, and the loop goes on. *)
Lemma loop_skip_404 (k : nat) : forall (i : nat) j rest res w,
  answered_404 net call rq (clock w) k = true ->
  (Z.of_nat (i + k) <= stat404retry_count self)%Z ->
  sleeps_return self k ->
  loop (map Z.of_nat (seq i k) ++ j :: rest) res w =
  loop (j :: rest) None
    {| clock := clock w + k;
       trace := trace w ++ retry_events self call rq url i k;
       files := files w |}.
Proof.
  induction k as [|k IH]; intros i j rest res w H404 Hle Hsleep.
  - simpl. rewrite Nat.add_0_r, app_nil_r. destruct w; reflexivity.
  - simpl in H404. apply andb_prop in H404 as [Hhd Htl].
    cbn [seq map app].
    unfold loop at 1. cbn [retry_loop]. fold loop.
    unfold bind at 1, try_except, requests_call. fold rq.
    destruct (net (clock w) call rq) as [r|] eqn:Hnet; [|discriminate].
    simpl in Hhd. apply Z.eqb_eq in Hhd. rewrite Hhd.
    cbn [Z.leb Z.compare Pos.compare Pos.compare_cont andb Z.eqb Pos.eqb].
    replace (Z.of_nat i <? stat404retry_count self)%Z with true
      by (symmetry; apply Z.ltb_lt; lia).
    assert (Hdelay : Qle_bool 0 (stat404retry_delay self) = true)
      by (apply Qle_bool_iff; destruct Hsleep as [?|?]; [discriminate | assumption]).
    unfold sleep, bind, emit, ret. rewrite Hdelay. cbn [clock trace files].
    rewrite (IH (S i) j rest (Some r)); cbn [clock trace files].
    + fold url. f_equal. f_equal; [lia |].
      rewrite <- !app_assoc. reflexivity.
    + exact Htl.
    + lia.
    + right. destruct Hsleep as [?|?]; [discriminate | assumption].
Qed.

(** After [k] answers 404, the attempt that is not retried decides the
    call: it is not a 404, or no retry is left. *)
Lemma run_last_attempt (k : nat) w :
  answered_404 net call rq (clock w) k = true ->
  (Z.of_nat k <= stat404retry_count self)%Z ->
  is_404 (net (clock w + k) call rq) = false \/
    Z.of_nat k = stat404retry_count self ->
  sleeps_return self k ->
  run w =
  match net (clock w + k) call rq with
  | ConnectionFailed =>
      (Raise (connection_error py_str self url), attempted self call rq url w k)
  | Responded r =>
      if is_2xx r then (response_handler r, attempted self call rq url w k)
      else finish (Some r) (attempted self call rq url w k)
  end.
Proof.
  intros H404 Hle Hlast Hsleep.
  unfold run, _call. rewrite (range_0_split k) by exact Hle.
  unfold bind at 1. fold loop.
  rewrite loop_skip_404 by (try exact H404; try exact Hsleep; simpl; lia).
  unfold loop. cbn [retry_loop]. fold loop.
  unfold bind at 1, try_except, requests_call. fold rq.
  cbn [clock trace files]. unfold attempted.
  rewrite <- !app_assoc.
  destruct (net (clock w + k) call rq) as [r|] eqn:Hnet.
  - unfold is_2xx.
    destruct ((200 <=? status_code r)%Z && (status_code r <=? 299)%Z) eqn:H2.
    + unfold bind, lift, ret.
      destruct (response_handler r); reflexivity.
    + replace ((status_code r =? 404)%Z && (Z.of_nat k <? stat404retry_count self)%Z)
        with false.
      * reflexivity.
      * symmetry. apply andb_false_iff.
        destruct Hlast as [Hn|Hn]; [left; exact Hn | right; apply Z.ltb_ge; lia].
  - cbn [is_ConnectionError]. reflexivity.
Qed.
(** Classification always fails, and all it leaves behind is at most
    one error record in the log. *)
Lemma finish_effects res w :
  exists e tail,
    finish res w =
      (Raise e, {| clock := clock w; trace := trace w ++ tail; files := files w |}) /\
    forallb is_EvError tail = true.
Proof.
  unfold finish, classify, abort, raise, bind, try_except, local, lift, ret, emit.
  destruct w as [c0 tr fs].
  destruct res as [r|]; cbn [is_ValueError].
  - destruct (json r) as [j|e1]; cbn [clock trace files].
    + destruct (response_error_code j) as [c|e2]; cbn [clock trace files].
      * destruct (dict_contains (errors_by_code self) c) as [[|]|e3];
          cbn [clock trace files].
        -- destruct (dict_get (errors_by_code self) c) as [m|e4];
             cbn [clock trace files is_ValueError].
           ++ eexists _, [_]. split; reflexivity.
           ++ destruct (is_ValueError e4); eexists _, [_]; split; reflexivity.
        -- eexists _, [_]. split; reflexivity.
        -- destruct (is_ValueError e3); eexists _, [_]; split; reflexivity.
      * destruct (is_ValueError e2); eexists _, [_]; split; reflexivity.
    + destruct (is_ValueError e1); eexists _, [];
        rewrite app_nil_r; split; reflexivity.
  - eexists _, []. rewrite app_nil_r. split; reflexivity.
Qed.





(** The final response is handed to classification. *)
Lemma run_final (k : nat) w r :
  final_response net self call rq w k r ->
  run w = finish (Some r) (attempted self call rq url w k).
Proof.
  intros (H404 & Hle & Hnet & H2 & Hlast & Hsleep).
  rewrite (run_last_attempt k); [rewrite Hnet, H2; reflexivity |try assumption..].
  rewrite Hnet. simpl.
  destruct Hlast as [Hne|Heq]; [left; apply Z.eqb_neq; exact Hne | right; exact Heq].
Qed.
End Dispatch.

(** ** Classification with the hooks of [ApiBase] itself *)

Section BaseClassification.
Import ApiBase.
Variable net : nat -> verb -> request -> outcome.
Variable py_str : pyobj -> string.
Variable self : t.
Context {R : Type}.
Variable call : verb.
Variable path : string.
Variable headers_arg : option header_map.
Variable data : pyval.
Variable params : pyval.
Variable path_abs : bool.
Variable response_handler : response -> result R.
Variable kwargs : list (string * pyval).

Let rq := call_request (hooks := base_hooks) self path headers_arg data params
            path_abs kwargs.
Let url := _url self path path_abs.
Let run := _call (hooks := base_hooks) net py_str self call path headers_arg
             data params path_abs response_handler kwargs.



(** What classification does with the bodies that are valid JSON but
    not what it expects. *)
Lemma call_leaks_on_non_mapping (k : nat) w r j :
  final_response net self call rq w k r ->
  resp_json r = Decoded j ->
  (forall d, j <> VDict d) ->
  fst (run w) = Raise AttributeError.
Proof.
  intros Hfinal Hjson Hshape.
  unfold run. rewrite (run_final _ _ _ _ _ _ _ _ _ _ _ k w r Hfinal).
  unfold classify, bind, try_except, local, ret, lift, emit, abort, raise,
    json, Response_json.
  rewrite Hjson.
  destruct j; try reflexivity. exfalso. exact (Hshape _ eq_refl).
Qed.

Lemma call_leaks_on_unhashable_code (k : nat) w r d X :
  final_response net self call rq w k r ->
  resp_json r = Decoded (VDict d) ->
  d !! "error" = Some X ->
  hash_key X = None ->
  fst (run w) = Raise TypeError.
Proof.
  intros Hfinal Hjson Herr Hhash.
  unfold run. rewrite (run_final _ _ _ _ _ _ _ _ _ _ _ k w r Hfinal).
  unfold classify, bind, try_except, local, ret, lift, emit, abort, raise,
    json, Response_json, dict_contains.
  rewrite Hjson. cbn [response_error_code base_hooks].
  rewrite Herr. cbn [from_option id]. rewrite Hhash. reflexivity.
Qed.

(** Everywhere else the failure is an [ApiCallException]. *)
Lemma call_fails_structured (k : nat) w r :
  final_response net self call rq w k r ->
  match resp_json r with
  | Decoded (VDict d) => is_Some (hash_key (default VNone (d !! "error")))
  | Decoded _ => False
  | NotJson | NotJsonValueError => True
  end ->
  exists e, fst (run w) = Raise (ApiCallException_ e).
Proof.
  intros Hfinal Hbody.
  unfold run. rewrite (run_final _ _ _ _ _ _ _ _ _ _ _ k w r Hfinal).
  unfold classify, bind, try_except, local, ret, lift, emit, abort, raise,
    json, Response_json, dict_contains, dict_get.
  destruct (resp_json r) as [j| |].
  - destruct j; try contradiction. destruct Hbody as [c Hc].
    cbn [response_error_code base_hooks]. rewrite Hc.
    destruct (bool_decide (is_Some (errors_by_code self !! c)));
      cbn [fst is_ValueError]; eexists; reflexivity.
  - cbn [is_JSONDecodeError response_error_code base_hooks].
    rewrite lookup_empty. cbn [from_option id hash_key].
    destruct (bool_decide (is_Some (errors_by_code self !! KNone)));
      cbn [fst is_ValueError]; eexists; reflexivity.
  - cbn. eexists; reflexivity.
Qed.
End BaseClassification.

(** C4.  Every failure of the dispatch routine is meant to reach the
    caller as an [ApiCallException], whatever the final response, a body
    that decodes to something other than a mapping included.  The code
    lets other exceptions through: on a status 500 whose body is the JSON
    list [[]] the default [response_error_code] calls [.get] on a list
    and [AttributeError] escapes; on [{"error": ["x"]}] the membership
    test hashes a list and [TypeError] escapes.  Lines 107-108 catch
    [ValueError] only. *)
Theorem call_leaks_other_exceptions :
  fst (ApiBase._call (hooks := ApiBase.base_hooks) (Samples.net_always (Samples.reply 500 (Decoded (VList []))))
         Samples.fmt Samples.client GET "things/1" None VNone VNone false
         json_response_handler [] Samples.world0)
    = Raise AttributeError /\
  fst (ApiBase._call (hooks := ApiBase.base_hooks)
         (Samples.net_always
            (Samples.reply 500 (Decoded (VDict (<["error" := VList [VStr "x"]]> ∅)))))
         Samples.fmt Samples.client GET "things/1" None VNone VNone false
         json_response_handler [] Samples.world0)
    = Raise TypeError.
Proof. split; vm_compute; reflexivity. Qed.


(** ** The [headers] argument *)

Section Headers.
Import ApiBase.
Variable net : nat -> verb -> request -> outcome.
Variable py_str : pyobj -> string.
Context {hooks : Hooks}.
Variable self : t.
Context {R : Type}.
Variable call : verb.
Variable path : string.
Variable data : pyval.
Variable params : pyval.
Variable path_abs : bool.
Variable response_handler : response -> result R.
Variable kwargs : list (string * pyval).

Let rq_of (hd : option header_map) :=
  call_request self path hd data params path_abs kwargs.
Let loop_of (hd : option header_map) :=
  retry_loop net py_str self call path hd data params path_abs
    response_handler kwargs.
Let run_of (hd : option header_map) :=
  _call net py_str self call path hd data params path_abs
    response_handler kwargs.




(** Whatever the loop adds to the trace, its requests are all the one
    request of line 89. *)
Lemma loop_requests hd indices : forall res w,
  exists evs,
    trace (snd (loop_of hd indices res w)) = trace w ++ evs /\
    requests_are call (rq_of hd) evs.
Proof.
  induction indices as [|i indices IH]; intros res w.
  - exists []. rewrite app_nil_r. split; [reflexivity | constructor].
  - unfold loop_of. cbn [retry_loop]. fold (loop_of hd) (rq_of hd).
    unfold bind, try_except, requests_call, abort, raise, lift, ret, emit.
    destruct (net (clock w) call (rq_of hd)) as [r|]; cbn [is_ConnectionError].
    + destruct ((200 <=? status_code r)%Z && (status_code r <=? 299)%Z).
      * exists [EvRequest call (rq_of hd)].
        destruct (response_handler r); (split; [reflexivity|]);
          repeat constructor.
      * destruct ((status_code r =? 404)%Z && (i <? stat404retry_count self)%Z).
        -- unfold sleep, bind, emit, ret, raise. cbn [clock trace files].
           destruct (Qle_bool 0 (stat404retry_delay self)).
           ++ match goal with
              | |- context [loop_of hd indices (Some r) ?w1] =>
                  destruct (IH (Some r) w1) as (evs & Htr & Hrq)
              end.
              cbn [trace] in Htr. rewrite Htr.
              eexists. rewrite <- !app_assoc. split; [reflexivity|].
              cbn [app]. repeat constructor. exact Hrq.
           ++ cbn [snd trace].
              eexists. rewrite <- !app_assoc. split; [reflexivity|].
              cbn [app]. repeat constructor.
        -- exists [EvRequest call (rq_of hd)].
           split; [reflexivity|]. repeat constructor.
    + exists [EvRequest call (rq_of hd)].
      split; [reflexivity|]. repeat constructor.
Qed.

Lemma run_requests hd w :
  exists evs,
    trace (snd (run_of hd w)) = trace w ++ evs /\
    requests_are call (rq_of hd) evs.
Proof.
  unfold run_of, _call, bind. fold (loop_of hd).
  destruct (loop_requests hd (range 0 (stat404retry_count self + 1)) None w)
    as (evs & Htr & Hrq).
  destruct (loop_of hd (range 0 (stat404retry_count self + 1)) None w)
    as [[[v|res]|e] w1]; cbn [snd] in *; try (exists evs; split; assumption).
  destruct (finish_effects py_str self (R := R) path path_abs res w1)
    as (e & tail & Hfin & Htail).
  rewrite Hfin. cbn [snd trace]. rewrite Htr.
  exists (evs ++ tail). rewrite app_assoc. split; [reflexivity|].
  apply Forall_app. split; [exact Hrq|].
  clear -Htail. induction tail as [|ev tail IH]; [constructor|].
  cbn in Htail. apply andb_prop in Htail as [Hev Htl].
  constructor; [destruct ev; try discriminate; exact I | exact (IH Htl)].
Qed.


End Headers.

Section HeadersOfVerbs.
Import ApiBase.
Variable net : nat -> verb -> request -> outcome.
Variable py_str : pyobj -> string.
Context {hooks : Hooks}.
Variable self : t.
Context {R : Type}.
Variable path : string.
Variable data : pyval.
Variable params : pyval.
Variable path_abs : bool.
Variable response_handler : response -> result R.
Variable kwargs : list (string * pyval).

Let run_of (call : verb) (hd : option header_map) :=
  _call net py_str self call path hd data params path_abs
    response_handler kwargs.

End HeadersOfVerbs.

(** ** Paths and the final segment of a URL *)

Section Segments.
Implicit Types (s pre seg : string) (c : ascii).

Lemma append_cons a s t : String a s +:+ t = String a (s +:+ t).
Proof. reflexivity. Qed.

Lemma append_assoc s t u : (s +:+ t) +:+ u = s +:+ t +:+ u.
Proof. induction s as [|a s IH]; [reflexivity|]. rewrite !append_cons, IH. reflexivity. Qed.

Lemma append_empty_r s : s +:+ "" = s.
Proof. induction s as [|a s IH]; [reflexivity|]. rewrite append_cons, IH. reflexivity. Qed.

Lemma rfind_lower s c : (-1 <= rfind s c)%Z.
Proof.
  induction s as [|a s IH]; cbn [rfind]; [lia|].
  destruct (Z.leb_spec 0 (rfind s c)); [lia|].
  destruct (Ascii.eqb a c); lia.
Qed.

Lemma rfind_absent s c : has_char c s = false -> rfind s c = (-1)%Z.
Proof.
  induction s as [|a s IH]; cbn [rfind has_char]; [reflexivity|].
  intros H. apply orb_false_elim in H as [Ha Hs].
  rewrite (IH Hs), Ha. reflexivity.
Qed.

(** [s.rfind(c)] is [-1] when [c] does not occur; otherwise it splits
    [s] at an occurrence of [c] after which there is no other. *)
Lemma rfind_spec s c :
  (rfind s c = (-1)%Z /\ has_char c s = false) \/
  (exists pre,
     s = pre +:+ String c (drop_chars (Z.to_nat (rfind s c + 1)) s) /\
     (0 <= rfind s c)%Z /\
     has_char c (drop_chars (Z.to_nat (rfind s c + 1)) s) = false).
Proof.
  induction s as [|a s IH]; [left; split; reflexivity|].
  cbn [rfind has_char].
  destruct IH as [[Hr Hno]|(pre & Hs & Hr & Hno)].
  - rewrite Hr. cbn [Z.leb Z.compare].
    destruct (Ascii.eqb_spec a c) as [->|Hne].
    + right. exists "". cbn. split; [reflexivity|]. split; [lia | exact Hno].
    + left. rewrite Hno. split; reflexivity.
  - replace (0 <=? rfind s c)%Z with true by (symmetry; apply Z.leb_le; exact Hr).
    right. exists (String a pre).
    replace (Z.to_nat (rfind s c + 1 + 1)) with (S (Z.to_nat (rfind s c + 1))) by lia.
    cbn [drop_chars]. rewrite append_cons, <- Hs.
    split; [reflexivity|]. split; [lia | exact Hno].
Qed.

Lemma final_segment_eq s :
  final_segment s = drop_chars (Z.to_nat (rfind s "/" + 1)) s.
Proof.
  unfold final_segment, slice_from.
  pose proof (rfind_lower s "/").
  replace (rfind s "/" + 1 <? 0)%Z with false by (symmetry; apply Z.ltb_ge; lia).
  reflexivity.
Qed.

Lemma endswith_snoc pre c : endswith (pre +:+ String c "") c = true.
Proof.
  induction pre as [|a pre IH]; [cbn; apply Ascii.eqb_refl|].
  rewrite append_cons. cbn [endswith].
  destruct (pre +:+ String c "") eqn:E; [destruct pre; discriminate|].
  exact IH.
Qed.

Lemma rfind_endswith pre c :
  endswith pre c = true -> rfind pre c = (Z.of_nat (String.length pre) - 1)%Z.
Proof.
  induction pre as [|a pre IH]; [discriminate|].
  cbn [endswith rfind String.length]. destruct pre as [|b pre].
  - intros ->. reflexivity.
  - intros H. rewrite (IH H).
    replace (0 <=? Z.of_nat (String.length (String b pre)) - 1)%Z with true
      by (symmetry; apply Z.leb_le; cbn [String.length]; lia).
    lia.
Qed.

Lemma rfind_app_absent pre seg c :
  has_char c seg = false -> rfind (pre +:+ seg) c = rfind pre c.
Proof.
  intros Hno. induction pre as [|a pre IH].
  - cbn. apply rfind_absent. exact Hno.
  - rewrite append_cons. cbn [rfind]. rewrite IH. reflexivity.
Qed.

Lemma drop_chars_app pre seg :
  drop_chars (String.length pre) (pre +:+ seg) = seg.
Proof. induction pre as [|a pre IH]; [reflexivity | exact IH]. Qed.

(** The final segment holds no ['/'] and is what follows the last one. *)
Lemma final_segment_spec s :
  has_char "/" (final_segment s) = false /\
  exists pre, s = pre +:+ final_segment s /\ (pre = "" \/ endswith pre "/" = true).
Proof.
  rewrite final_segment_eq.
  destruct (rfind_spec s "/") as [[Hr Hno]|(pre & Hs & Hr & Hno)].
  - rewrite Hr. cbn [Z.add Z.to_nat drop_chars]. split; [exact Hno|].
    exists "". split; [reflexivity | left; reflexivity].
  - split; [exact Hno|].
    exists (pre +:+ String "/" ""). split; [|right; apply endswith_snoc].
    rewrite append_assoc. exact Hs.
Qed.

Lemma final_segment_app pre seg :
  has_char "/" seg = false ->
  pre = "" \/ endswith pre "/" = true ->
  final_segment (pre +:+ seg) = seg.
Proof.
  intros Hno Hpre. rewrite final_segment_eq, (rfind_app_absent _ _ _ Hno).
  destruct Hpre as [->|Hend].
  - reflexivity.
  - rewrite (rfind_endswith _ _ Hend).
    replace (Z.to_nat (Z.of_nat (String.length pre) - 1 + 1))
      with (String.length pre) by lia.
    apply drop_chars_app.
Qed.

(** The file [os.path.join(dir, seg)] is named [seg]. *)
Lemma final_segment_join_path dir seg :
  has_char "/" seg = false ->
  final_segment (join_path dir seg) = seg.
Proof.
  intros Hno. unfold join_path.
  replace (startswith seg "/") with false
    by (destruct seg; [reflexivity|]; cbn in *;
        apply orb_false_elim in Hno as [-> _]; reflexivity).
  destruct (String.eqb_spec dir "") as [->|Hne]; cbn [orb].
  - apply final_segment_app; [exact Hno | left; reflexivity].
  - destruct (endswith dir "/") eqn:Hend.
    + apply final_segment_app; [exact Hno | right; exact Hend].
    + change (dir +:+ "/" +:+ seg) with (dir +:+ String "/" "" +:+ seg).
      rewrite <- append_assoc.
      apply final_segment_app; [exact Hno | right; apply endswith_snoc].
Qed.
End Segments.

(** ** [download_file] *)

Section Download.
Import ApiBase.
Variable net : nat -> verb -> request -> outcome.
Variable can_open : string -> bool.
Variable py_str : pyobj -> string.
Context {hooks : Hooks}.
Variable self : t.
Variable source_url local_dir : string.

Let local_path := local_path_of source_url local_dir.
Let rq : request :=
  {| req_url := source_url;
     req_headers := headers [];
     req_json := VNone;
     req_params := VNone;
     req_stream := true |}.
Let download := download_file net can_open py_str self source_url local_dir.

(** Streaming appends the blocks before the first empty one. *)
Lemma write_blocks_spec blocks : forall w content,
  files w !! local_path = Some content ->
  write_blocks local_path blocks w =
    (Ok tt,
     {| clock := clock w;
        trace := trace w ++ map (EvWrite local_path) (blocks_written blocks);
        files := <[local_path := content ++ concat (blocks_written blocks)]> (files w) |}).
Proof.
  induction blocks as [|block blocks IH]; intros w content Hfile.
  - cbn. rewrite !app_nil_r, insert_id by exact Hfile. destruct w; reflexivity.
  - destruct block as [|b block].
    + cbn. rewrite !app_nil_r, insert_id by exact Hfile. destruct w; reflexivity.
    + cbn [write_blocks blocks_written]. unfold bind, write at 1.
      rewrite Hfile. cbn [from_option id].
      rewrite (IH _ (content ++ b :: block)) by (cbn; apply lookup_insert_eq).
      cbn [clock trace files map concat]. rewrite insert_insert_eq.
      rewrite <- !app_assoc. reflexivity.
Qed.

(** What a download does once the file is open and the server answers. *)
Lemma download_run w r :
  can_open local_path = true ->
  net (clock w) GET rq = Responded r ->
  download w =
    if ok r
    then (Ok local_path,
          {| clock := S (clock w);
             trace := trace w ++ [EvOpen local_path; EvRequest GET rq]
                        ++ map (EvWrite local_path) (blocks_written (iter_content r))
                        ++ [EvClose local_path];
             files := <[local_path := concat (blocks_written (iter_content r))]>
                        (files w) |})
    else (Raise (ApiCallException_ (download_failure py_str self source_url r)),
          {| clock := S (clock w);
             trace := trace w ++ [EvOpen local_path; EvRequest GET rq;
                                  EvClose local_path];
             files := <[local_path := []]> (files w) |}).
Proof.
  intros Hopen Hnet.
  unfold download, download_file. fold local_path. fold rq.
  unfold bind at 1, open_wb. rewrite Hopen.
  unfold bind at 1, finally, bind at 1, requests_call.
  cbn [clock trace files]. rewrite Hnet.
  destruct (ok r); cbn [negb].
  - rewrite (write_blocks_spec _ _ []) by (cbn; apply lookup_insert_eq).
    cbn [clock trace files emit ret app]. rewrite insert_insert_eq.
    rewrite <- !app_assoc. reflexivity.
  - unfold raise, emit, ret. cbn [clock trace files].
    rewrite <- !app_assoc. reflexivity.
Qed.

(** C8. [download_file] writes to the file [os.path.join(local_dir, name)]
    whose name is the final path segment of the URL, the text after its
    last ['/'].  When the server's response is successful it streams
    the body there and returns that path; when it is not, it fails with
    an [ApiCallException] that carries the status code and the source
    URL. *)
Theorem download_file_writes_final_segment w r :
  can_open local_path = true ->
  net (clock w) GET rq = Responded r ->
  local_path = join_path local_dir (final_segment source_url) /\
  final_segment local_path = final_segment source_url /\
  has_char "/" (final_segment source_url) = false /\
  (exists pre, source_url = pre +:+ final_segment source_url /\
               (pre = "" \/ endswith pre "/" = true)) /\
  if ok r
  then fst (download w) = Ok local_path /\
       files (snd (download w)) =
         <[local_path := concat (blocks_written (iter_content r))]> (files w) /\
       trace (snd (download w)) =
         trace w ++ [EvOpen local_path; EvRequest GET rq]
           ++ map (EvWrite local_path) (blocks_written (iter_content r))
           ++ [EvClose local_path]
  else exists e,
       fst (download w) = Raise (ApiCallException_ e) /\
       ApiCallException.given_args e =
         [("status_code", Val (VInt (status_code r)));
          ("url", Val (VStr source_url))] /\
       ApiCallException.status_code e = Val (VInt (status_code r)) /\
       ApiCallException.url e = Some (Val (VStr source_url)).
Proof.
  intros Hopen Hnet.
  destruct (final_segment_spec source_url) as (Hno & Hpre).
  split; [reflexivity|].
  split; [apply final_segment_join_path; exact Hno|].
  split; [exact Hno|]. split; [exact Hpre|].
  rewrite (download_run w r Hopen Hnet).
  destruct (ok r); cbn [fst snd files trace].
  - repeat split.
  - eexists. split; [reflexivity|]. repeat split.
Qed.

(** C9. The destination is opened for writing, hence created or
    truncated, before the request is sent: whenever [download_file]
    fails with an [ApiCallException], the open precedes the request in
    the trace and the file exists and is empty. *)
Theorem download_failure_leaves_empty_file w e w' :
  download w = (Raise (ApiCallException_ e), w') ->
  files w' !! local_path = Some [] /\
  trace w' = trace w ++ [EvOpen local_path; EvRequest GET rq; EvClose local_path] /\
  exists r, net (clock w) GET rq = Responded r /\ ok r = false /\
            e = download_failure py_str self source_url r.
Proof.
  intros Hrun.
  destruct (can_open local_path) eqn:Hopen.
  - destruct (net (clock w) GET rq) as [r|] eqn:Hnet.
    + rewrite (download_run w r Hopen Hnet) in Hrun.
      destruct (ok r) eqn:Hok; [discriminate|].
      injection Hrun as <- <-. cbn [files trace].
      split; [apply lookup_insert_eq|]. split; [reflexivity|].
      exists r. auto.
    + exfalso. revert Hrun.
      unfold download, download_file. fold local_path. fold rq.
      unfold bind at 1, open_wb. rewrite Hopen.
      unfold bind at 1, finally, bind at 1, requests_call.
      cbn [clock trace files]. rewrite Hnet. cbn. discriminate.
  - exfalso. revert Hrun.
    unfold download, download_file. fold local_path.
    unfold bind at 1, open_wb. rewrite Hopen. discriminate.
Qed.
End Download.

(** ** The theorems at work on the sample client *)

Section OnSamples.
Import ApiBase Samples.







Lemma download_file_writes_final_segment_sample :
  local_path_of "http://cdn/img/logo.png" "/tmp" = "/tmp/logo.png" /\
  fst (get_logo (net_always image) world0) = Ok "/tmp/logo.png" /\
  files (snd (get_logo (net_always image) world0)) !! "/tmp/logo.png"
    = Some [x89; x50; x4e; x47].
Proof.
  destruct (download_file_writes_final_segment (net_always image) any_path fmt
              client "http://cdn/img/logo.png" "/tmp" world0 image)
    as (_ & _ & _ & _ & Hret & Hfiles & _).
  - reflexivity.
  - reflexivity.
  - split; [reflexivity|]. split; [exact Hret|].
    unfold get_logo. rewrite Hfiles. reflexivity.
Defined.

Lemma download_failure_leaves_empty_file_sample :
  files (snd (get_logo (net_always (reply 404 NotJson)) world0)) !! "/tmp/logo.png"
    = Some [].
Proof.
  destruct (download_failure_leaves_empty_file (net_always (reply 404 NotJson))
              any_path fmt client "http://cdn/img/logo.png" "/tmp" world0
              (download_failure fmt client "http://cdn/img/logo.png"
                 (reply 404 NotJson))
              (snd (get_logo (net_always (reply 404 NotJson)) world0)))
    as (Hfile & _).
  - reflexivity.
  - exact Hfile.
Defined.
End OnSamples.

(** * Further properties of the dispatch routine *)

Section DispatchBounds.
Import ApiBase.
Variable net : nat -> verb -> request -> outcome.
Variable py_str : pyobj -> string.
Context {hooks : Hooks}.
Variable self : t.
Context {R : Type}.
Variable call : verb.
Variable path : string.
Variable headers_arg : option header_map.
Variable data : pyval.
Variable params : pyval.
Variable path_abs : bool.
Variable response_handler : response -> result R.
Variable kwargs : list (string * pyval).

Let rq := call_request self path headers_arg data params path_abs kwargs.
Let url := _url self path path_abs.
Let loop := retry_loop net py_str self call path headers_arg data params
              path_abs response_handler kwargs.
Let run := _call net py_str self call path headers_arg data params
              path_abs response_handler kwargs.
Let finish := @classify py_str hooks self R path path_abs.

Lemma count_events_app p evs evs' :
  count_events p (evs ++ evs') = (count_events p evs + count_events p evs')%nat.
Proof. unfold count_events. rewrite List.filter_app, length_app. reflexivity. Qed.

Lemma count_events_error_log tail :
  forallb is_EvError tail = true ->
  count_events is_EvRequest tail = 0%nat /\
  count_events is_EvSleep tail = 0%nat /\
  count_events is_EvWarning tail = 0%nat.
Proof.
  induction tail as [|ev tail IH]; [auto|].
  cbn [forallb]. intros H. apply andb_prop in H as [Hev Htl].
  destruct (IH Htl) as (H1 & H2 & H3).
  destruct ev; try discriminate. unfold count_events in *. cbn. auto.
Qed.

(** The loop makes one request per index at most, sleeps only at an
    index below [stat404retry_count], and leaves the files alone. *)
Lemma loop_bounds indices : forall res w,
  exists evs,
    snd (loop indices res w) =
      {| clock := clock w + count_events is_EvRequest evs;
         trace := trace w ++ evs;
         files := files w |} /\
    (count_events is_EvRequest evs <= length indices)%nat /\
    (count_events is_EvSleep evs <=
       length (List.filter (fun i => (i <? stat404retry_count self)%Z) indices))%nat /\
    count_events is_EvWarning evs = count_events is_EvSleep evs.
Proof.
  induction indices as [|i indices IH]; intros res w.
  - exists []. cbn. rewrite app_nil_r, Nat.add_0_r. destruct w. auto.
  - unfold loop. cbn [retry_loop]. fold loop. fold rq.
    unfold bind at 1, try_except, requests_call, abort, raise.
    destruct (net (clock w) call rq) as [r|]; cbn [is_ConnectionError].
    + destruct ((200 <=? status_code r)%Z && (status_code r <=? 299)%Z).
      * exists [EvRequest call rq]. unfold bind, lift, ret.
        destruct (response_handler r); cbn [snd]; unfold count_events; cbn;
          (split; [f_equal; lia|]); repeat split; lia.
      * destruct ((status_code r =? 404)%Z && (i <? stat404retry_count self)%Z)
          eqn:Hretry.
        -- unfold sleep, bind, emit, ret, raise. cbn [clock trace files].
           apply andb_prop in Hretry as [_ Hlt]. cbn [List.filter]. rewrite Hlt.
           destruct (Qle_bool 0 (stat404retry_delay self)).
           ++ match goal with
              | |- context [loop indices (Some r) ?w1] =>
                  destruct (IH (Some r) w1) as (evs & Hw & Hreq & Hsl & Hwarn)
              end.
              rewrite Hw. cbn [clock trace files].
              exists (EvRequest call rq
                      :: EvWarning url (i + 1) (stat404retry_count self)
                           (stat404retry_delay self)
                      :: EvSleep (stat404retry_delay self) :: evs).
              unfold count_events in *. cbn [List.filter is_EvRequest is_EvSleep
                is_EvWarning length].
              split; [f_equal; [lia | rewrite <- !app_assoc; reflexivity]|].
              repeat split; lia.
           ++ cbn [snd].
              exists [EvRequest call rq;
                      EvWarning url (i + 1) (stat404retry_count self)
                        (stat404retry_delay self);
                      EvSleep (stat404retry_delay self)].
              unfold count_events. cbn [List.filter is_EvRequest is_EvSleep
                is_EvWarning length].
              split; [f_equal; [lia | rewrite <- !app_assoc; reflexivity]|].
              repeat split; lia.
        -- exists [EvRequest call rq]. unfold ret. cbn [snd].
           unfold count_events; cbn [List.filter is_EvRequest is_EvSleep
             is_EvWarning length].
           split; [f_equal; lia|]. repeat split; lia.
    + exists [EvRequest call rq]. cbn [snd].
      unfold count_events; cbn [List.filter is_EvRequest is_EvSleep
        is_EvWarning length].
      split; [f_equal; lia|]. repeat split; lia.
Qed.

Lemma retry_indices_below (n : Z) :
  length (List.filter (fun i => (i <? n)%Z) (range 0 (n + 1))) = Z.to_nat n.
Proof.
  destruct (Z.le_gt_cases 0 n) as [Hn|Hn].
  - rewrite (range_0_split (Z.to_nat n) n) by lia.
    rewrite Nat.sub_diag. cbn [seq map].
    rewrite List.filter_app. cbn [List.filter].
    replace (Z.of_nat (Z.to_nat n) <? n)%Z with false
      by (symmetry; apply Z.ltb_ge; lia).
    rewrite app_nil_r.
    assert (Hall : forall len start, (start + len <= Z.to_nat n)%nat ->
              List.filter (fun i => (i <? n)%Z) (map Z.of_nat (seq start len)) =
              map Z.of_nat (seq start len)).
    { induction len as [|len IHlen]; intros start Hle; [reflexivity|].
      cbn [seq map List.filter].
      replace (Z.of_nat start <? n)%Z with true by (symmetry; apply Z.ltb_lt; lia).
      rewrite IHlen by lia. reflexivity. }
    rewrite Hall by lia. rewrite length_map, length_seq. reflexivity.
  - unfold range. replace (Z.to_nat (n + 1 - 0)) with 0%nat by lia.
    cbn. lia.
Qed.

(** X1. Whatever the server does, one call of the dispatch routine sends
    at most [stat404retry_count + 1] requests, sleeps at most
    [stat404retry_count] times with one warning per sleep, advances the
    transport by exactly the requests it sent, only adds to the trace,
    and writes no file. *)
Theorem call_attempts_are_bounded w :
  exists evs,
    snd (run w) =
      {| clock := clock w + count_events is_EvRequest evs;
         trace := trace w ++ evs;
         files := files w |} /\
    (count_events is_EvRequest evs <= Z.to_nat (stat404retry_count self + 1))%nat /\
    (count_events is_EvSleep evs <= Z.to_nat (stat404retry_count self))%nat /\
    count_events is_EvWarning evs = count_events is_EvSleep evs.
Proof.
  unfold run, _call, bind. fold loop.
  destruct (loop_bounds (range 0 (stat404retry_count self + 1)) None w)
    as (evs & Hw & Hreq & Hsl & Hwarn).
  rewrite retry_indices_below in Hsl.
  assert (Hlen : length (range 0 (stat404retry_count self + 1)) =
                 Z.to_nat (stat404retry_count self + 1))
    by (unfold range; rewrite length_map, length_seq; lia).
  rewrite Hlen in Hreq.
  destruct (loop (range 0 (stat404retry_count self + 1)) None w)
    as [[[v|res]|e] w1]; cbn [snd] in *.
  - exists evs. auto.
  - destruct (finish_effects py_str self (R := R) path path_abs res w1)
      as (e & tail & Hfin & Htail).
    rewrite Hfin. cbn [snd]. subst w1. cbn [clock trace files].
    destruct (count_events_error_log tail Htail) as (T1 & T2 & T3).
    exists (evs ++ tail). rewrite !count_events_app, T1, T2, T3, !Nat.add_0_r.
    rewrite app_assoc. auto.
  - exists evs. auto.
Qed.

(** X2. With a negative [stat404retry_count] the range of the loop is
    empty: no request is sent, nothing is logged, and the read of the
    unassigned [res] on line 101 escapes as [UnboundLocalError]. *)
Theorem call_with_negative_retry_count w :
  (stat404retry_count self < 0)%Z ->
  run w = (Raise UnboundLocalError, w).
Proof.
  intros Hneg. unfold run, _call, range.
  replace (Z.to_nat (stat404retry_count self + 1 - 0)) with 0%nat by lia.
  reflexivity.
Qed.




(** X6. Every request of one call is the same request: made with the
    verb of the method, to [base + '/' + path] (or [path] when
    [path_abs]), with the given [params], never streamed, and with a
    [json] body only when [data] is truthy: [0], [''], [[]], [{}],
    [False] and [None] are all sent as no body. *)
Theorem call_sends_one_request_shape w :
  exists evs,
    trace (snd (run w)) = trace w ++ evs /\
    forall v rq', In (EvRequest v rq') evs ->
      v = call /\
      req_url rq' = (if path_abs then path else base self +:+ "/" +:+ path) /\
      req_json rq' = (if truthy data then data else VNone) /\
      req_params rq' = params /\
      req_stream rq' = false.
Proof.
  destruct (run_requests net py_str self call path data params path_abs
              response_handler kwargs headers_arg w) as (evs & Htr & Hrq).
  exists evs. split; [exact Htr|].
  intros v rq' Hin. unfold requests_are in Hrq.
  rewrite Forall_forall in Hrq. apply list_elem_of_In in Hin.
  destruct (Hrq _ Hin) as [-> ->].
  unfold call_request, _url. cbn. destruct path_abs; auto.
Qed.

(** X7. A client built without [stat404retry_count], or with [0], never
    retries: whatever the first answer is, a 404 included, the call sends
    exactly one request and never sleeps. *)
Theorem call_without_retries_sends_once w :
  stat404retry_count self = 0%Z ->
  exists tail,
    snd (run w) =
      {| clock := S (clock w);
         trace := trace w ++ EvRequest call rq :: tail;
         files := files w |} /\
    forallb is_EvError tail = true.
Proof.
  intros Hzero.
  assert (Hrun := run_last_attempt net py_str self call path headers_arg data
                    params path_abs response_handler kwargs 0 w eq_refl).
  rewrite Hzero in Hrun.
  specialize (Hrun ltac:(simpl; lia) ltac:(right; reflexivity)
                ltac:(left; reflexivity)).
  fold rq url run finish in Hrun. rewrite Nat.add_0_r in Hrun.
  rewrite Hrun. unfold attempted. cbn [retry_events app].
  rewrite Nat.add_0_r.
  destruct (net (clock w) call rq) as [r|].
  - destruct (is_2xx r).
    + exists []. split; reflexivity.
    + match goal with
      | |- context [finish (Some r) ?w1] =>
          destruct (finish_effects py_str self (R := R) path path_abs (Some r) w1)
            as (e & tail & Hfin & Htail)
      end.
      unfold finish. rewrite Hfin. cbn [snd clock trace files].
      exists tail. rewrite <- app_assoc. split; [reflexivity | exact Htail].
  - exists []. split; reflexivity.
Qed.

End DispatchBounds.

(** ** Success with a body that is not JSON *)

Section Handlers.
Import ApiBase.
Variable net : nat -> verb -> request -> outcome.
Variable py_str : pyobj -> string.
Context {hooks : Hooks}.
Variable self : t.
Variable call : verb.
Variable path : string.
Variable headers_arg : option header_map.
Variable data : pyval.
Variable params : pyval.
Variable path_abs : bool.
Variable kwargs : list (string * pyval).

Let rq := call_request self path headers_arg data params path_abs kwargs.
Let url := _url self path path_abs.

End Handlers.

(** ** The table of error codes *)

Section ErrorsByCode.
Import ApiBase.
Implicit Types (members : list member) (m : member) (c : key).

Lemma by_code_snoc members m :
  by_code (members ++ [m]) = <[fst (value m) := m]> (by_code members).
Proof. unfold by_code. rewrite foldl_app. reflexivity. Qed.

Lemma by_code_lookup members c :
  (forall m, by_code members !! c = Some m ->
     m ∈ members /\ fst (value m) = c) /\
  (is_Some (by_code members !! c) <-> c ∈ map (fun m => fst (value m)) members).
Proof.
  induction members as [|x members IH] using rev_ind.
  - split.
    + intros m H. unfold by_code in H. cbn in H. rewrite lookup_empty in H.
      discriminate.
    + unfold by_code. cbn. rewrite lookup_empty. split.
      * intros [? ?]; discriminate.
      * intros H. apply elem_of_nil in H. contradiction.
  - destruct IH as [IHm IHk]. rewrite by_code_snoc, map_app. cbn [map].
    destruct (decide (fst (value x) = c)) as [Heq|Hne].
    + subst c. rewrite lookup_insert_eq. split.
      * intros m [= <-]. split; [|reflexivity].
        apply elem_of_app. right. apply list_elem_of_singleton. reflexivity.
      * split; [|eauto]. intros _.
        apply elem_of_app. right. apply list_elem_of_singleton. reflexivity.
    + rewrite lookup_insert_ne by exact Hne. split.
      * intros m Hm. destruct (IHm m Hm) as [Hin Hc]. split; [|exact Hc].
        apply elem_of_app. left. exact Hin.
      * rewrite IHk, elem_of_app, list_elem_of_singleton.
        split; [left; assumption | intros [H|H]; [exact H | congruence]].
Qed.

Lemma by_code_last members m rest :
  Forall (fun m' => fst (value m') <> fst (value m)) rest ->
  by_code (members ++ m :: rest) !! fst (value m) = Some m.
Proof.
  induction rest as [|x rest IH] using rev_ind; intros Hrest.
  - rewrite by_code_snoc. apply lookup_insert_eq.
  - apply Forall_app in Hrest as [Hrest Hx].
    replace (members ++ m :: rest ++ [x]) with ((members ++ m :: rest) ++ [x])
      by (rewrite <- app_assoc; reflexivity).
    rewrite by_code_snoc, lookup_insert_ne.
    + apply IH. exact Hrest.
    + apply Forall_inv in Hx. exact Hx.
Qed.

(** X9. Whatever [errors_by_code] returns for a code is a member of the
    enumeration that has this code, and a code is a key of the table
    exactly when some member has it. *)
Theorem errors_by_code_holds_members base members count delay c :
  let self := __init__ base members count delay in
  (forall m, errors_by_code self !! c = Some m ->
     m ∈ error_code_type self /\ fst (value m) = c) /\
  (is_Some (errors_by_code self !! c) <->
     c ∈ map (fun m => fst (value m)) members).
Proof. exact (by_code_lookup members c). Qed.

(** X10. A member declared later replaces an earlier member with the
    same code: the code of [m] leads to [m] when no member after [m] has
    that code, whatever the members before it are. *)
Theorem errors_by_code_last_member_wins base count delay members m rest :
  Forall (fun m' => fst (value m') <> fst (value m)) rest ->
  errors_by_code (__init__ base (members ++ m :: rest) count delay)
    !! fst (value m) = Some m.
Proof. apply by_code_last. Qed.

(** X11. When the codes of the members are pairwise distinct, the table
    finds every member under its own code. *)
Theorem errors_by_code_finds_each_member base count delay members m :
  NoDup (map (fun m => fst (value m)) members) ->
  m ∈ members ->
  errors_by_code (__init__ base members count delay) !! fst (value m) = Some m.
Proof.
  intros Hdup Hin. cbn [errors_by_code __init__].
  apply list_elem_of_split in Hin as (before & rest & ->).
  apply by_code_last.
  rewrite map_app in Hdup. cbn [map] in Hdup.
  apply NoDup_app in Hdup as (_ & _ & Hdup).
  apply NoDup_cons in Hdup as [Hnotin _].
  apply Forall_forall. intros m' Hm' Heq.
  apply Hnotin. rewrite <- Heq.
  apply list_elem_of_In.
  apply (in_map (fun m => fst (value m))), list_elem_of_In. exact Hm'.
Qed.

(** X20. The text of a classified failure of a client names the code of
    the matched member, not the member: the keywords are listed in call
    order as [key: value], joined by [', '], and [err] replaces the
    member by its [value[0]]. *)
Theorem classified_failure_text_names_the_code
    (py_str : pyobj -> string) base members count delay c m sc u body :
  let self := __init__ base members count delay in
  errors_by_code self !! c = Some m ->
  ApiCallException.args0
    (ApiCallException.__init__ py_str (error_code_type self)
       [("status_code", Val (VInt sc)); ("error", Member m);
        ("url", Val (VStr u)); ("response_body", Val body)]) =
  Val (VStr ("status_code: " +:+ py_str (Val (VInt sc)) +:+ ", " +:+
             "error: " +:+ py_str (Val (key_val c)) +:+ ", " +:+
             "url: " +:+ py_str (Val (VStr u)) +:+ ", " +:+
             "response_body: " +:+ py_str (Val body))).
Proof.
  intros self Hm. destruct (by_code_lookup members c) as [Hmem _].
  destruct (Hmem m Hm) as [Hin Hc].
  unfold ApiCallException.__init__. cbn [kw_get String.eqb Ascii.eqb Bool.eqb
    ApiCallException.args0 map fst snd ApiCallException.join].
  unfold ApiCallException.err, ApiCallException.isinstance.
  cbn [negb error_code_type self __init__].
  rewrite bool_decide_true
    by (apply list_elem_of_In, (in_map name), list_elem_of_In; exact Hin).
  cbn [negb]. rewrite Hc. reflexivity.
Qed.
End ErrorsByCode.

(** ** More on paths *)

Section SegmentEdges.
Import ApiBase.

Lemma drop_chars_all s : drop_chars (String.length s) s = "".
Proof. induction s as [|a s IH]; [reflexivity | exact IH]. Qed.

(** X12. A URL without any ['/'] is its own final segment ([rfind] is
    [-1] and the slice starts at [0]): the download goes to
    [os.path.join(local_dir, source_url)]. *)
Theorem download_path_of_url_without_slash source_url local_dir :
  has_char "/" source_url = false ->
  final_segment source_url = source_url /\
  local_path_of source_url local_dir = join_path local_dir source_url.
Proof.
  intros Hno.
  assert (Hseg : final_segment source_url = source_url)
    by (rewrite final_segment_eq, (rfind_absent _ _ Hno); reflexivity).
  split; [exact Hseg|]. unfold local_path_of. fold (final_segment source_url).
  rewrite Hseg. reflexivity.
Qed.

(** X13. A URL that ends with ['/'] has an empty final segment: the path
    [download_file] opens for writing is the directory itself,
    [local_dir] with a ['/'] at its end. *)
Theorem download_path_of_url_ending_in_slash source_url local_dir :
  endswith source_url "/" = true ->
  final_segment source_url = "" /\
  local_path_of source_url local_dir =
    (if String.eqb local_dir "" || endswith local_dir "/" then local_dir
     else local_dir +:+ "/").
Proof.
  intros Hend.
  assert (Hseg : final_segment source_url = "").
  { rewrite final_segment_eq, (rfind_endswith _ _ Hend).
    replace (Z.to_nat (Z.of_nat (String.length source_url) - 1 + 1))
      with (String.length source_url) by lia.
    apply drop_chars_all. }
  split; [exact Hseg|]. unfold local_path_of. fold (final_segment source_url).
  rewrite Hseg. unfold join_path. cbn [startswith].
  destruct (String.eqb local_dir "" || endswith local_dir "/").
  - apply append_empty_r.
  - reflexivity.
Qed.
End SegmentEdges.

(** ** More on [download_file] *)

Section DownloadEdges.
Import ApiBase.
Variable net : nat -> verb -> request -> outcome.
Variable can_open : string -> bool.
Variable py_str : pyobj -> string.
Context {hooks : Hooks}.
Variable self : t.
Variable source_url local_dir : string.

Let local_path := local_path_of source_url local_dir.
Let rq : request :=
  {| req_url := source_url;
     req_headers := headers [];
     req_json := VNone;
     req_params := VNone;
     req_stream := true |}.
Let download := download_file net can_open py_str self source_url local_dir.

Lemma blocks_written_all blocks :
  Forall (fun block => block <> []) blocks -> blocks_written blocks = blocks.
Proof.
  induction 1 as [|block blocks Hne _ IH]; [reflexivity|].
  destruct block; [contradiction|]. cbn [blocks_written]. rewrite IH. reflexivity.
Qed.

Lemma blocks_written_until_empty before after :
  Forall (fun block => block <> []) before ->
  blocks_written (before ++ [] :: after) = before.
Proof.
  induction 1 as [|block blocks Hne _ IH]; [reflexivity|].
  destruct block; [contradiction|]. cbn [app blocks_written]. rewrite IH.
  reflexivity.
Qed.

Lemma download_run_closed w :
  can_open local_path = false ->
  download w = (Raise OSError, w).
Proof.
  intros Hopen. unfold download, download_file. fold local_path.
  unfold bind at 1, open_wb. rewrite Hopen. reflexivity.
Qed.


(** What a download does when the transport fails. *)
Lemma download_run_down w :
  can_open local_path = true ->
  net (clock w) GET rq = ConnectionFailed ->
  download w =
    (Raise ConnectionError,
     {| clock := S (clock w);
        trace := trace w ++ [EvOpen local_path; EvRequest GET rq;
                             EvClose local_path];
        files := <[local_path := []]> (files w) |}).
Proof.
  intros Hopen Hnet.
  unfold download, download_file. fold local_path. fold rq.
  unfold bind at 1, open_wb. rewrite Hopen.
  unfold bind at 1, finally, bind at 1, requests_call.
  cbn [clock trace files]. rewrite Hnet.
  unfold emit. cbn [clock trace files].
  rewrite <- !app_assoc. reflexivity.
Qed.

(** X15. Unlike the dispatch routine, [download_file] does not turn a
    connection failure into an [ApiCallException]: the
    [ConnectionError] of the transport reaches the caller as it is,
    after the file has been closed, and the file is left empty. *)
Theorem download_lets_connection_error_through w :
  can_open local_path = true ->
  net (clock w) GET rq = ConnectionFailed ->
  fst (download w) = Raise ConnectionError /\
  (forall e, fst (download w) <> Raise (ApiCallException_ e)) /\
  files (snd (download w)) !! local_path = Some [] /\
  trace (snd (download w)) =
    trace w ++ [EvOpen local_path; EvRequest GET rq; EvClose local_path].
Proof.
  intros Hopen Hnet. rewrite (download_run_down w Hopen Hnet).
  cbn [fst snd files trace].
  split; [reflexivity|]. split; [discriminate|].
  split; [apply lookup_insert_eq | reflexivity].
Qed.

(** X16. Whatever happens, [download_file] changes no file other than
    its destination. *)
Theorem download_keeps_other_files w p :
  p <> local_path ->
  files (snd (download w)) !! p = files w !! p.
Proof.
  intros Hp.
  destruct (can_open local_path) eqn:Hopen.
  - destruct (net (clock w) GET rq) as [r|] eqn:Hnet.
    + unfold download.
      unfold download.
  rewrite (download_run net can_open py_str self source_url local_dir w r
                 Hopen Hnet).
      destruct (ok r); cbn [snd files]; apply lookup_insert_ne;
        intros Heq; apply Hp; symmetry; exact Heq.
    + rewrite (download_run_down w Hopen Hnet). cbn [snd files].
      apply lookup_insert_ne. intros Heq. apply Hp. symmetry. exact Heq.
  - rewrite (download_run_closed w Hopen). reflexivity.
Qed.

(** X17. Once the destination has been opened it is closed on every way
    out, by return or by exception: the trace of the download starts
    with the open, goes on with the one request, and ends with the
    close. *)
Theorem download_closes_the_file w :
  can_open local_path = true ->
  exists evs,
    trace (snd (download w)) =
      trace w ++ EvOpen local_path :: EvRequest GET rq :: evs ++ [EvClose local_path] /\
    clock (snd (download w)) = S (clock w) /\
    forall ev, In ev evs -> exists block, ev = EvWrite local_path block.
Proof.
  intros Hopen.
  destruct (net (clock w) GET rq) as [r|] eqn:Hnet.
  - unfold download.
    unfold download.
  rewrite (download_run net can_open py_str self source_url local_dir w r
               Hopen Hnet).
    destruct (ok r); cbn [snd trace clock].
    + exists (map (EvWrite local_path) (blocks_written (iter_content r))).
      split; [reflexivity|]. split; [reflexivity|].
      intros ev Hin. apply in_map_iff in Hin as (block & <- & _). eauto.
    + exists []. split; [reflexivity|]. split; [reflexivity|].
      intros ev [].
  - rewrite (download_run_down w Hopen Hnet). cbn [snd trace clock].
    exists []. split; [reflexivity|]. split; [reflexivity|]. intros ev [].
Qed.

(** X18. When no block of the body is empty, a successful download
    leaves exactly the concatenation of the blocks in the destination,
    whatever the file held before. *)
Theorem download_writes_whole_body w r :
  can_open local_path = true ->
  net (clock w) GET rq = Responded r ->
  ok r = true ->
  Forall (fun block => block <> []) (iter_content r) ->
  fst (download w) = Ok local_path /\
  files (snd (download w)) !! local_path = Some (concat (iter_content r)).
Proof.
  intros Hopen Hnet Hok Hblocks.
  unfold download.
  rewrite (download_run net can_open py_str self source_url local_dir w r
             Hopen Hnet), Hok.
  cbn [fst snd files]. rewrite (blocks_written_all _ Hblocks).
  split; [reflexivity | apply lookup_insert_eq].
Qed.

(** X19. An empty block ends the download (line 77): the blocks before
    the first empty one are written, those after it are dropped, and
    the call still returns the path. *)
Theorem download_stops_at_empty_block w r before after :
  can_open local_path = true ->
  net (clock w) GET rq = Responded r ->
  ok r = true ->
  iter_content r = before ++ [] :: after ->
  Forall (fun block => block <> []) before ->
  fst (download w) = Ok local_path /\
  files (snd (download w)) !! local_path = Some (concat before).
Proof.
  intros Hopen Hnet Hok Hsplit Hblocks.
  unfold download.
  rewrite (download_run net can_open py_str self source_url local_dir w r
             Hopen Hnet), Hok.
  cbn [fst snd files]. rewrite Hsplit, (blocks_written_until_empty _ _ Hblocks).
  split; [reflexivity | apply lookup_insert_eq].
Qed.
End DownloadEdges.

(** ** The further properties at work *)

Section OnMoreSamples.
Import ApiBase Samples MoreSamples.

Lemma call_with_negative_retry_count_sample :
  get_thing net_404_404_200 client_negative world0 = (Raise UnboundLocalError, world0).
Proof.
  apply (call_with_negative_retry_count net_404_404_200 fmt client_negative GET
           "things/1" None VNone VNone false json_response_handler [] world0).
  reflexivity.
Defined.





Lemma call_without_retries_sends_once_sample :
  exists tail,
    snd (get_thing (net_always (reply 404 NotJson)) client_default world0) =
      {| clock := 1;
         trace := EvRequest GET (thing_request client_default) :: tail;
         files := ∅ |}.
Proof.
  destruct (call_without_retries_sends_once (net_always (reply 404 NotJson)) fmt
              client_default GET "things/1" None VNone VNone false
              json_response_handler [] world0)
    as (tail & Hw & _).
  - reflexivity.
  - exists tail. exact Hw.
Defined.


Lemma errors_by_code_holds_members_sample :
  NOT_FOUND ∈ error_code_type client /\ fst (value NOT_FOUND) = KStr "NOT_FOUND".
Proof.
  apply (proj1 (errors_by_code_holds_members "http://api" [NOT_FOUND] (Some 2%Z)
                  (Some (1 # 2)%Q) (KStr "NOT_FOUND"))).
  vm_compute. reflexivity.
Defined.

Lemma errors_by_code_last_member_wins_sample :
  errors_by_code (__init__ "http://api" [MISSING; NOT_FOUND; UNKNOWN] None None)
    !! KStr "NOT_FOUND" = Some NOT_FOUND.
Proof.
  apply (errors_by_code_last_member_wins "http://api" None None [MISSING] NOT_FOUND
           [UNKNOWN]).
  repeat constructor. discriminate.
Defined.

Lemma errors_by_code_finds_each_member_sample :
  errors_by_code client_none_code !! KNone = Some UNKNOWN.
Proof.
  apply (errors_by_code_finds_each_member "http://api" None None
           [NOT_FOUND; UNKNOWN] UNKNOWN).
  - apply (bool_decide_unpack _). vm_compute. exact I.
  - apply elem_of_cons. right. apply elem_of_cons. left. reflexivity.
Defined.

Lemma classified_failure_text_names_the_code_sample :
  ApiCallException.args0
    (ApiCallException.__init__ fmt [NOT_FOUND]
       [("status_code", Val (VInt 400)); ("error", Member NOT_FOUND);
        ("url", Val (VStr "http://api/things/1"));
        ("response_body", Val (VDict not_found_body))]) =
  Val (VStr "status_code: <obj>, error: <obj>, url: <obj>, response_body: <obj>").
Proof.
  apply (classified_failure_text_names_the_code fmt "http://api" [NOT_FOUND]
           (Some 2%Z) (Some (1 # 2)%Q) (KStr "NOT_FOUND") NOT_FOUND 400
           "http://api/things/1" (VDict not_found_body)).
  vm_compute. reflexivity.
Defined.

Lemma download_path_of_url_without_slash_sample :
  local_path_of "logo.png" "/tmp" = "/tmp/logo.png".
Proof.
  rewrite (proj2 (download_path_of_url_without_slash "logo.png" "/tmp" eq_refl)).
  reflexivity.
Defined.

Lemma download_path_of_url_ending_in_slash_sample :
  local_path_of "http://cdn/img/" "/tmp" = "/tmp/".
Proof.
  rewrite (proj2 (download_path_of_url_ending_in_slash "http://cdn/img/" "/tmp"
                    eq_refl)).
  reflexivity.
Defined.


Lemma download_lets_connection_error_through_sample :
  fst (get_logo net_down world0) = Raise ConnectionError.
Proof.
  apply (download_lets_connection_error_through net_down any_path fmt client
           "http://cdn/img/logo.png" "/tmp" world0); reflexivity.
Defined.

Lemma download_keeps_other_files_sample :
  files (snd (get_logo (net_always image) world0)) !! "/tmp/other.png" = None.
Proof.
  unfold get_logo.
  rewrite (download_keeps_other_files (net_always image) any_path fmt client
             "http://cdn/img/logo.png" "/tmp" world0 "/tmp/other.png").
  - reflexivity.
  - vm_compute. discriminate.
Defined.

Lemma download_closes_the_file_sample :
  exists evs,
    trace (snd (get_logo (net_always image) world0)) =
      EvOpen "/tmp/logo.png"
      :: EvRequest GET
           {| req_url := "http://cdn/img/logo.png";
              req_headers := None;
              req_json := VNone;
              req_params := VNone;
              req_stream := true |}
      :: evs ++ [EvClose "/tmp/logo.png"].
Proof.
  destruct (download_closes_the_file (net_always image) any_path fmt client
              "http://cdn/img/logo.png" "/tmp" world0)
    as (evs & Htrace & _).
  - reflexivity.
  - exists evs. exact Htrace.
Defined.

Lemma download_writes_whole_body_sample :
  files (snd (get_logo (net_always image_whole) world0)) !! "/tmp/logo.png"
    = Some [x89; x50; x4e; x47].
Proof.
  apply (download_writes_whole_body (net_always image_whole) any_path fmt client
           "http://cdn/img/logo.png" "/tmp" world0 image_whole).
  - reflexivity.
  - reflexivity.
  - reflexivity.
  - repeat constructor; discriminate.
Defined.

Lemma download_stops_at_empty_block_sample :
  files (snd (get_logo (net_always image) world0)) !! "/tmp/logo.png"
    = Some [x89; x50; x4e; x47].
Proof.
  apply (download_stops_at_empty_block (net_always image) any_path fmt client
           "http://cdn/img/logo.png" "/tmp" world0 image
           [[x89; x50]; [x4e; x47]] [[x00]]).
  - reflexivity.
  - reflexivity.
  - reflexivity.
  - reflexivity.
  - repeat constructor; discriminate.
Defined.
End OnMoreSamples.
